(** * AmpliGraph regularizers: a shallow embedding of
      [ampligraph/latent_features/regularizers.py]

    The module registers four regularizer classes ("None", "L1", "L2", "L3")
    in a process-wide dictionary and gives each of them three hooks
    ([_init_hyperparams], [_inputs_check], [_apply]) that the inherited
    [apply] and [__init__] orchestrate.

    Modelling choices.
    - Numbers (Python ints and floats, tensor entries) are exact rationals
      [Q]; rounding of binary floating point is outside the model, and the
      literal [1e-5] is the rational [1/100000].
    - A tensor is its shape together with its entries in row-major order;
      the TensorFlow operations used by the module are element-wise maps
      and a sum over all entries.
    - A hyperparameter value is a number, [None], a list of numbers or a
      tuple of numbers.  Strings and lists with non-numeric entries are left
      out: what they do is decided by TensorFlow's operator overloading, not
      by this module.
    - The only mutable attribute of an instance is the dictionary
      [_regularizer_parameters]; methods are computations in a state and
      exception monad over that dictionary.  Logging and printing do not
      influence any result and are not modelled. *)

From Stdlib Require Import QArith Qabs Qpower.
From stdpp Require Import gmap strings list fin_maps.

Local Open Scope string_scope.

(** ** Python values, exceptions, outcomes *)

Inductive pyval : Type :=
| PyNum (x : Q)
| PyNone
| PyList (xs : list Q)
| PyTuple (xs : list Q).

Inductive exn : Type :=
| KeyError (key : string)
| IndexError
| TypeError
| ValueError (msg : string)
| Exception (msg : string).

Inductive outcome (A : Type) : Type :=
| Ok (a : A)
| Raise (e : exn).
Arguments Ok {A} a.
Arguments Raise {A} e.

(** [np.isscalar(v)]: the number, when [v] is one. *)
Definition isscalar (v : pyval) : option Q :=
  match v with PyNum x => Some x | _ => None end.

(** [isinstance(v, list)]: the items, when [v] is a list. *)
Definition isinstance_list (v : pyval) : option (list Q) :=
  match v with PyList xs => Some xs | _ => None end.

(** [v[i]] for a value [v] and a non-negative index [i]. *)
Definition getitem (v : pyval) (i : nat) : outcome Q :=
  match v with
  | PyList xs | PyTuple xs =>
      match xs !! i with Some x => Ok x | None => Raise IndexError end
  | PyNum _ | PyNone => Raise TypeError
  end.

(** [str(KeyError(k))] is the [repr] of the key. *)
Definition newline : string := String (Ascii.ascii_of_nat 10) EmptyString.
Definition str_KeyError (k : string) : string := "'" ++ k ++ "'".

(** ** The state and exception monad of a regularizer's methods *)

Definition M (A : Type) : Type :=
  gmap string pyval -> outcome A * gmap string pyval.

Definition ret {A} (a : A) : M A := fun s => (Ok a, s).

Definition bind {A B} (m : M A) (k : A -> M B) : M B :=
  fun s => match m s with
           | (Ok a, s') => k a s'
           | (Raise e, s') => (Raise e, s')
           end.

Definition raise {A} (e : exn) : M A := fun s => (Raise e, s).

Definition lift {A} (o : outcome A) : M A := fun s => (o, s).

Declare Scope py_scope.
Delimit Scope py_scope with py.
Notation "x <- m ;; k" := (bind m (fun x => k))
  (at level 100, m at next level, right associativity) : py_scope.
Notation "m ;;; k" := (bind m (fun _ => k))
  (at level 100, right associativity) : py_scope.
Local Open Scope py_scope.

(** [self._regularizer_parameters[k]] *)
Definition param_get (k : string) : M pyval :=
  fun s => match s !! k with
           | Some v => (Ok v, s)
           | None => (Raise (KeyError k), s)
           end.

(** [self._regularizer_parameters[k] = v] *)
Definition param_set (k : string) (v : pyval) : M unit :=
  fun s => (Ok tt, <[k := v]> s).

(** ** Tensors and the TensorFlow operations the module calls *)

Record tensor : Type := { shape : list nat; entries : list Q }.

Definition tf_map (f : Q -> Q) (t : tensor) : tensor :=
  {| shape := shape t; entries := map f (entries t) |}.

Definition tf_abs : tensor -> tensor := tf_map Qabs.
Definition tf_square : tensor -> tensor := tf_map (fun x => x * x)%Q.
Definition tf_pow (t : tensor) (n : Z) : tensor := tf_map (fun x => x ^ n)%Q t.
Definition tf_reduce_sum (t : tensor) : Q := fold_left Qplus (entries t) 0%Q.
Definition tf_constant (x : Q) : Q := x.

(** [trainable_params[i]] *)
Definition list_getitem (ts : list tensor) (i : nat) : outcome tensor :=
  match ts !! i with Some t => Ok t | None => Raise IndexError end.

(** [for i in range(n): acc = body(i, acc)] *)
Fixpoint for_range (body : nat -> Q -> M Q) (idx : list nat) (acc : Q) : M Q :=
  match idx with
  | [] => ret acc
  | i :: rest => acc' <- body i acc ;; for_range body rest acc'
  end.

(** ** Classes and the registry *)

(** A class handle: the class attributes set by [register_regularizer] and
    the three hooks a subclass of [Regularizer] overrides. *)
Record regclass : Type := {
  name : string;
  external_params : list string;
  class_params : gmap string pyval;
  _init_hyperparams : gmap string pyval -> M unit;
  _inputs_check : list tensor -> M unit;
  _apply : list tensor -> M Q
}.

(** [register_regularizer(name, external_params, class_params)(class_handle)]
    stores the handle under [name] and sets its three class attributes. *)
Definition register_regularizer (nm : string) (ext : list string)
    (cp : gmap string pyval) (class_handle : regclass)
    (registry : gmap string regclass) : regclass * gmap string regclass :=
  let h := {| name := nm;
              external_params := ext;
              class_params := cp;
              _init_hyperparams := _init_hyperparams class_handle;
              _inputs_check := _inputs_check class_handle;
              _apply := _apply class_handle |} in
  (h, <[nm := h]> registry).

(** The message of the [ValueError] raised by the three weighted classes. *)
Definition weight_error_msg : string :=
  "Regularizer weight must be a scalar or a list with length equal to number of params passes".

(** The default of the ['lambda'] hyperparameter, the literal [1e-5]. *)
Definition default_lambda : Q := 1 # 100000.

Module NoRegularizerClass.
Definition _init_hyperparams (hyperparam_dict : gmap string pyval) : M unit :=
  ret tt.
Definition _inputs_check (trainable_params : list tensor) : M unit :=
  ret tt.
Definition _apply (trainable_params : list tensor) : M Q :=
  ret (tf_constant 0%Q).
End NoRegularizerClass.

(** The three weighted classes share [_init_hyperparams] and [_inputs_check]
    word for word; they are written once here and instantiated three times
    below. *)
Module Weighted.
Definition _init_hyperparams (hyperparam_dict : gmap string pyval) : M unit :=
  param_set "lambda" (default (PyNum default_lambda) (hyperparam_dict !! "lambda")).

Definition _inputs_check (trainable_params : list tensor) : M unit :=
  lam <- param_get "lambda" ;;
  match isscalar lam with
  | Some x =>
      param_set "lambda" (PyList (replicate (length trainable_params) x))
  | None =>
      match isinstance_list lam with
      | Some xs =>
          if Nat.eqb (length xs) (length trainable_params) then ret tt
          else raise (ValueError weight_error_msg)
      | None => raise (ValueError weight_error_msg)
      end
  end.

(** One iteration of the loop of [_apply], with the element-wise penalty
    [pen] of the class:
    [loss_reg += lambda[i] * tf.reduce_sum(pen(trainable_params[i]))]. *)
Definition _apply_body (pen : tensor -> tensor)
    (trainable_params : list tensor) (i : nat) (loss_reg : Q) : M Q :=
  lam <- param_get "lambda" ;;
  w <- lift (getitem lam i) ;;
  t <- lift (list_getitem trainable_params i) ;;
  ret (loss_reg + w * tf_reduce_sum (pen t))%Q.

(** [loss_reg = 0; for i in range(len(trainable_params)): ...; return loss_reg] *)
Definition _apply (pen : tensor -> tensor) (trainable_params : list tensor) : M Q :=
  for_range (_apply_body pen trainable_params)
    (seq 0 (length trainable_params)) 0%Q.
End Weighted.

Module L1RegularizerClass.
Definition _init_hyperparams := Weighted._init_hyperparams.
Definition _inputs_check := Weighted._inputs_check.
Definition _apply : list tensor -> M Q := Weighted._apply tf_abs.
End L1RegularizerClass.

Module L2RegularizerClass.
Definition _init_hyperparams := Weighted._init_hyperparams.
Definition _inputs_check := Weighted._inputs_check.
Definition _apply : list tensor -> M Q := Weighted._apply tf_square.
End L2RegularizerClass.

Module L3RegularizerClass.
Definition _init_hyperparams := Weighted._init_hyperparams.
Definition _inputs_check := Weighted._inputs_check.
Definition _apply : list tensor -> M Q :=
  Weighted._apply (fun t => tf_pow (tf_abs t) 3).
End L3RegularizerClass.

(** Module load: the registry starts empty and the four decorated class
    definitions are executed in source order. *)
Definition NoRegularizer_body : regclass :=
  {| name := EmptyString; external_params := []; class_params := ∅;
     _init_hyperparams := NoRegularizerClass._init_hyperparams;
     _inputs_check := NoRegularizerClass._inputs_check;
     _apply := NoRegularizerClass._apply |}.

Definition L1Regularizer_body : regclass :=
  {| name := EmptyString; external_params := []; class_params := ∅;
     _init_hyperparams := L1RegularizerClass._init_hyperparams;
     _inputs_check := L1RegularizerClass._inputs_check;
     _apply := L1RegularizerClass._apply |}.

Definition L2Regularizer_body : regclass :=
  {| name := EmptyString; external_params := []; class_params := ∅;
     _init_hyperparams := L2RegularizerClass._init_hyperparams;
     _inputs_check := L2RegularizerClass._inputs_check;
     _apply := L2RegularizerClass._apply |}.

Definition L3Regularizer_body : regclass :=
  {| name := EmptyString; external_params := []; class_params := ∅;
     _init_hyperparams := L3RegularizerClass._init_hyperparams;
     _inputs_check := L3RegularizerClass._inputs_check;
     _apply := L3RegularizerClass._apply |}.

Definition module_load
  : (regclass * regclass * regclass * regclass) * gmap string regclass :=
  let r0 : gmap string regclass := ∅ in
  let '(c0, r1) := register_regularizer "None" [] ∅ NoRegularizer_body r0 in
  let '(c1, r2) := register_regularizer "L1" ["lambda"] ∅ L1Regularizer_body r1 in
  let '(c2, r3) := register_regularizer "L2" ["lambda"] ∅ L2Regularizer_body r2 in
  let '(c3, r4) := register_regularizer "L3" ["lambda"] ∅ L3Regularizer_body r3 in
  ((c0, c1, c2, c3), r4).

Definition NoRegularizer : regclass := fst (fst (fst (fst module_load))).
Definition L1Regularizer : regclass := snd (fst (fst (fst module_load))).
Definition L2Regularizer : regclass := snd (fst (fst module_load)).
Definition L3Regularizer : regclass := snd (fst module_load).
Definition REGULARIZER_REGISTRY : gmap string regclass := snd module_load.

(** ** Instances and the inherited methods of [Regularizer] *)

Record instance : Type := {
  cls : regclass;
  _regularizer_parameters : gmap string pyval
}.

(** Run a method body on an instance; the class never changes. *)
Definition run {A} (m : M A) (self : instance) : outcome A * instance :=
  let '(r, ps) := m (_regularizer_parameters self) in
  (r, {| cls := cls self; _regularizer_parameters := ps |}).

(** [cls(hyperparam_dict, verbose)]: the parameter dictionary starts empty,
    the class's [_init_hyperparams] fills it, and a [KeyError] is turned
    into an [Exception].  [verbose] only prints. *)
Definition __init__ (c : regclass) (hyperparam_dict : gmap string pyval)
    (verbose : bool) : outcome instance :=
  match _init_hyperparams c hyperparam_dict ∅ with
  | (Ok _, ps) => Ok {| cls := c; _regularizer_parameters := ps |}
  | (Raise (KeyError k), _) =>
      Raise (Exception ("Some of the hyperparams for regularizer were not passed."
                          ++ newline ++ str_KeyError k))
  | (Raise e, _) => Raise e
  end.

(** [self.get_state(param_name)]: the registry is indexed with the class
    name (a [KeyError] there becomes an [Exception]); the class parameters
    are read with [dict.get], whose answer for an absent key is [None]. *)
Definition get_state (self : instance) (param_name : string) : outcome pyval :=
  match REGULARIZER_REGISTRY !! name (cls self) with
  | Some h => Ok (default PyNone (class_params h !! param_name))
  | None =>
      Raise (Exception ("Invalid Key." ++ newline ++ str_KeyError (name (cls self))))
  end.

(** [self.apply(trainable_params)] *)
Definition apply (self : instance) (trainable_params : list tensor)
  : outcome Q * instance :=
  run (_inputs_check (cls self) trainable_params ;;;
       _apply (cls self) trainable_params) self.

(** ** Callers and the closed forms of the specification *)

(** The classes that carry a ['lambda'] weight. *)
Definition weighted (c : regclass) : Prop :=
  c = L1Regularizer \/ c = L2Regularizer \/ c = L3Regularizer.

(** A caller that invokes [apply] once per element of [calls], in order, on
    the same instance. *)
Fixpoint apply_seq (self : instance) (calls : list (list tensor))
  : list (outcome Q) * instance :=
  match calls with
  | [] => ([], self)
  | ts :: rest =>
      let '(r, self1) := apply self ts in
      let '(rs, self2) := apply_seq self1 rest in
      (r :: rs, self2)
  end.

(** The instance [self] with its parameter dictionary replaced by [ps]. *)
Definition with_params (self : instance) (ps : gmap string pyval) : instance :=
  {| cls := cls self; _regularizer_parameters := ps |}.

(** A rank-1 tensor. *)
Definition vector (xs : list Q) : tensor :=
  {| shape := [length xs]; entries := xs |}.

(** Sample data: two tensors, and an L1 instance as it is right after
    construction from [{'lambda': 0.5}]. *)
Definition sample_tensors : list tensor := [vector [-1; 2]%Q; vector [3%Q]].
Definition sample_instance : instance :=
  {| cls := L1Regularizer;
     _regularizer_parameters := <["lambda" := PyNum (1 # 2)]> ∅ |}.

(** The sum of a list of numbers, as the specification writes it. *)
Definition Qsum (xs : list Q) : Q := foldr Qplus 0%Q xs.

(** The specification's closed form: the sum over tensors of weight_i times
    the sum of [f] over the entries of tensor_i. *)
Definition weighted_penalty (f : Q -> Q) (ws : list Q) (ts : list tensor) : Q :=
  Qsum (zip_with (fun w t => w * Qsum (map f (entries t)))%Q ws ts).

Definition abs_value (x : Q) : Q := Qabs x.
Definition squared (x : Q) : Q := (x ^ 2)%Q.
Definition cubed_abs (x : Q) : Q := (Qabs x ^ 3)%Q.

(** What the loop of [_apply] leaves in [loss_reg] when it starts from [acc]
    and meets the weights [ws] and the tensors [ts] pairwise. *)
Definition loop_result (pen : tensor -> tensor) (ws : list Q)
    (ts : list tensor) (acc : Q) : Q :=
  fold_left (fun a wt => (a + fst wt * tf_reduce_sum (pen (snd wt)))%Q)
            (zip ws ts) acc.

(** ** Further callers and specification-level notions *)

(** A caller's usual pattern: build the regularizer from [{'lambda': lam}]
    and apply it once to the trainable parameters. *)
Definition regularization_loss (c : regclass) (lam : pyval) (ts : list tensor)
  : outcome Q :=
  match __init__ c (<["lambda" := lam]> ∅) false with
  | Ok self => fst (apply self ts)
  | Raise e => Raise e
  end.

(** Whether a ['lambda'] value passes the check for [n] tensors, and the
    per-tensor weights the loop then reads. *)
Definition accepts (lam : pyval) (n : nat) : bool :=
  match lam with
  | PyNum _ => true
  | PyList ws => Nat.eqb (length ws) n
  | PyNone | PyTuple _ => false
  end.

Definition weights_of (lam : pyval) (n : nat) : list Q :=
  match lam with
  | PyNum x => replicate n x
  | PyList ws => ws
  | PyNone | PyTuple _ => []
  end.

(** The items of a subscriptable value. *)
Definition items (lam : pyval) : option (list Q) :=
  match lam with
  | PyList ws | PyTuple ws => Some ws
  | PyNum _ | PyNone => None
  end.

(** What the loop of [_apply] computes when nothing has checked the weights:
    it runs out of weights with an [IndexError], and it never looks at
    weights beyond the last tensor. *)
Fixpoint loop_outcome (pen : tensor -> tensor) (ws : list Q)
    (ts : list tensor) (acc : Q) {struct ts} : outcome Q :=
  match ts with
  | [] => Ok acc
  | t :: ts' =>
      match ws with
      | [] => Raise IndexError
      | w :: ws' => loop_outcome pen ws' ts' (acc + w * tf_reduce_sum (pen t))%Q
      end
  end.

(** The penalty summed over all entries of all tensors, unweighted. *)
Definition total_penalty (f : Q -> Q) (ts : list tensor) : Q :=
  Qsum (map (fun t => Qsum (map f (entries t))) ts).

(** [tf.negative]: every entry negated. *)
Definition tf_negative : tensor -> tensor := tf_map Qopp.

(** Two outcomes agree: the same exception, or losses equal as rationals. *)
Definition outcome_Qeq (r1 r2 : outcome Q) : Prop :=
  match r1, r2 with
  | Ok a, Ok b => (a == b)%Q
  | Raise e1, Raise e2 => e1 = e2
  | _, _ => False
  end.


(** What the proofs need to know about a class's element-wise penalty [pen]
    and the function [f] it applies to each entry. *)
Definition penalty_facts (pen : tensor -> tensor) (f : Q -> Q) : Prop :=
  (forall t, tf_reduce_sum (pen t) == Qsum (map f (entries t)))%Q /\
  (forall x, 0 <= f x)%Q /\
  (forall x, f (- x) == f x)%Q /\
  (forall x, x == 0 -> f x == 0)%Q.



(** * Properties *)

Local Open Scope list_scope.

(** ** Sums *)

Section Sums.
Local Open Scope Q_scope.

Lemma fold_left_Qplus_Qsum (xs : list Q) (a : Q) :
  fold_left Qplus xs a == a + Qsum xs.
Proof.
  revert a; induction xs as [|x xs IH]; intros a; simpl.
  - ring.
  - rewrite IH. ring.
Qed.

Lemma reduce_sum_map (f : Q -> Q) (t : tensor) :
  tf_reduce_sum (tf_map f t) == Qsum (map f (entries t)).
Proof.
  unfold tf_reduce_sum, tf_map; simpl.
  rewrite fold_left_Qplus_Qsum. ring.
Qed.

Lemma map_ext_Qsum (f g : Q -> Q) (xs : list Q) :
  (forall x, f x == g x) -> Qsum (map f xs) == Qsum (map g xs).
Proof.
  intros Hfg; induction xs as [|x xs IH]; simpl; [reflexivity|].
  rewrite Hfg, IH. reflexivity.
Qed.

Lemma reduce_sum_abs (t : tensor) :
  tf_reduce_sum (tf_abs t) == Qsum (map abs_value (entries t)).
Proof. apply reduce_sum_map. Qed.

Lemma reduce_sum_square (t : tensor) :
  tf_reduce_sum (tf_square t) == Qsum (map squared (entries t)).
Proof.
  unfold tf_square. rewrite reduce_sum_map.
  apply map_ext_Qsum. intros x. unfold squared. simpl. reflexivity.
Qed.

Lemma reduce_sum_cube (t : tensor) :
  tf_reduce_sum (tf_pow (tf_abs t) 3) == Qsum (map cubed_abs (entries t)).
Proof.
  unfold tf_pow. rewrite reduce_sum_map.
  unfold tf_abs, tf_map; simpl. rewrite map_map. reflexivity.
Qed.

(** The loop's left-to-right accumulation agrees with the closed form. *)
Lemma loop_result_closed_form (pen : tensor -> tensor) (f : Q -> Q) :
  (forall t, tf_reduce_sum (pen t) == Qsum (map f (entries t))) ->
  forall ws ts acc,
    loop_result pen ws ts acc == acc + weighted_penalty f ws ts.
Proof.
  intros Hpen. unfold loop_result, weighted_penalty.
  induction ws as [|w ws IH]; intros [|t ts] acc; simpl; try ring.
  rewrite IH, Hpen. ring.
Qed.
End Sums.

(** ** The loop of [_apply] on a list-valued weight *)

Lemma for_range_loop (pen : tensor -> tensor) (ws : list Q) (ts : list tensor)
    (s : gmap string pyval) :
  s !! "lambda" = Some (PyList ws) ->
  forall ts2 ws2 ws1 ts1 acc,
    ws = ws1 ++ ws2 -> ts = ts1 ++ ts2 ->
    length ws1 = length ts1 -> length ws2 = length ts2 ->
    for_range (Weighted._apply_body pen ts) (seq (length ts1) (length ts2)) acc s
    = (Ok (loop_result pen ws2 ts2 acc), s).
Proof.
  intros Hs. induction ts2 as [|t ts2 IH]; intros [|w ws2] ws1 ts1 acc Hws Hts H1 H2;
    simpl in H2; try discriminate; [reflexivity|].
  cbn [length seq for_range].
  unfold bind at 1. unfold Weighted._apply_body at 1.
  unfold bind, param_get, lift, ret. rewrite Hs.
  cbn [getitem].
  rewrite Hws, <- H1, list_lookup_middle by reflexivity.
  unfold list_getitem. rewrite Hts, H1, list_lookup_middle by reflexivity.
  specialize (IH ws2 (ws1 ++ [w]) (ts1 ++ [t])).
  rewrite !length_app in IH. simpl in IH. rewrite !Nat.add_1_r in IH.
  rewrite <- Hts. rewrite IH.
  - reflexivity.
  - rewrite <- app_assoc. exact Hws.
  - rewrite <- app_assoc. exact Hts.
  - lia.
  - lia.
Qed.

Lemma weighted_apply_list (pen : tensor -> tensor) (ws : list Q)
    (ts : list tensor) (s : gmap string pyval) :
  s !! "lambda" = Some (PyList ws) ->
  length ws = length ts ->
  Weighted._apply pen ts s = (Ok (loop_result pen ws ts 0%Q), s).
Proof.
  intros Hs Hlen. unfold Weighted._apply.
  exact (for_range_loop pen ws ts s Hs ts ws [] [] 0%Q eq_refl eq_refl eq_refl Hlen).
Qed.

(** ** The hooks of the weighted classes *)

Lemma weighted_hooks (c : regclass) :
  weighted c ->
  exists pen,
    _init_hyperparams c = Weighted._init_hyperparams /\
    _inputs_check c = Weighted._inputs_check /\
    _apply c = Weighted._apply pen.
Proof.
  intros [-> | [-> | ->]]; eexists; repeat split; reflexivity.
Qed.

Lemma init_weighted (c : regclass) (d : gmap string pyval) (v : bool) :
  weighted c ->
  __init__ c d v
  = Ok {| cls := c;
          _regularizer_parameters :=
            <["lambda" := default (PyNum default_lambda) (d !! "lambda")]> ∅ |}.
Proof.
  intros Hc. destruct (weighted_hooks c Hc) as (pen & Hi & _ & _).
  unfold __init__. rewrite Hi. reflexivity.
Qed.

Section InputsCheck.
Variable ts : list tensor.
Variable s : gmap string pyval.

Lemma check_scalar (x : Q) :
  s !! "lambda" = Some (PyNum x) ->
  Weighted._inputs_check ts s
  = (Ok tt, <["lambda" := PyList (replicate (length ts) x)]> s).
Proof.
  intros Hs. unfold Weighted._inputs_check, bind, param_get.
  rewrite Hs. reflexivity.
Qed.

Lemma check_list_ok (ws : list Q) :
  s !! "lambda" = Some (PyList ws) -> length ws = length ts ->
  Weighted._inputs_check ts s = (Ok tt, s).
Proof.
  intros Hs Hlen. unfold Weighted._inputs_check, bind, param_get.
  rewrite Hs. simpl. rewrite Hlen, Nat.eqb_refl. reflexivity.
Qed.

Lemma check_list_bad (ws : list Q) :
  s !! "lambda" = Some (PyList ws) -> length ws <> length ts ->
  Weighted._inputs_check ts s = (Raise (ValueError weight_error_msg), s).
Proof.
  intros Hs Hlen. unfold Weighted._inputs_check, bind, param_get.
  rewrite Hs. simpl.
  destruct (Nat.eqb_spec (length ws) (length ts)); [contradiction | reflexivity].
Qed.

Lemma check_other (lam : pyval) :
  s !! "lambda" = Some lam ->
  isscalar lam = None -> isinstance_list lam = None ->
  Weighted._inputs_check ts s = (Raise (ValueError weight_error_msg), s).
Proof.
  intros Hs H1 H2. unfold Weighted._inputs_check, bind, param_get.
  rewrite Hs, H1, H2. reflexivity.
Qed.

Lemma check_missing :
  s !! "lambda" = None ->
  Weighted._inputs_check ts s = (Raise (KeyError "lambda"), s).
Proof.
  intros Hs. unfold Weighted._inputs_check, bind, param_get.
  rewrite Hs. reflexivity.
Qed.
End InputsCheck.

(** ** [apply] on an instance of a weighted class, by the shape of ['lambda'] *)

Lemma with_params_id (self : instance) :
  with_params self (_regularizer_parameters self) = self.
Proof. destruct self; reflexivity. Qed.

Section ApplyCases.
Variable self : instance.
Variable pen : tensor -> tensor.
Hypothesis Hcheck : _inputs_check (cls self) = Weighted._inputs_check.
Hypothesis Hloop : _apply (cls self) = Weighted._apply pen.
Variable ts : list tensor.

Let ps := _regularizer_parameters self.

Local Ltac enter_apply :=
  unfold apply, run, bind; cbv beta; fold ps.

Lemma apply_scalar (x : Q) :
  ps !! "lambda" = Some (PyNum x) ->
  apply self ts
  = (Ok (loop_result pen (replicate (length ts) x) ts 0%Q),
     with_params self (<["lambda" := PyList (replicate (length ts) x)]> ps)).
Proof using All.
  intros Hs. enter_apply. rewrite Hcheck, Hloop.
  rewrite (check_scalar ts _ x Hs).
  rewrite (weighted_apply_list pen (replicate (length ts) x)).
  - reflexivity.
  - apply lookup_insert_eq.
  - apply length_replicate.
Qed.

Lemma apply_list_ok (ws : list Q) :
  ps !! "lambda" = Some (PyList ws) -> length ws = length ts ->
  apply self ts = (Ok (loop_result pen ws ts 0%Q), self).
Proof using All.
  intros Hs Hlen. enter_apply. rewrite Hcheck, Hloop.
  rewrite (check_list_ok ts _ ws Hs Hlen).
  rewrite (weighted_apply_list pen ws ts _ Hs Hlen).
  f_equal. apply with_params_id.
Qed.

Lemma apply_list_bad (ws : list Q) :
  ps !! "lambda" = Some (PyList ws) -> length ws <> length ts ->
  apply self ts = (Raise (ValueError weight_error_msg), self).
Proof using All.
  intros Hs Hlen. enter_apply. rewrite Hcheck.
  rewrite (check_list_bad ts _ ws Hs Hlen).
  f_equal. apply with_params_id.
Qed.

Lemma apply_other (lam : pyval) :
  ps !! "lambda" = Some lam ->
  isscalar lam = None -> isinstance_list lam = None ->
  apply self ts = (Raise (ValueError weight_error_msg), self).
Proof using All.
  intros Hs H1 H2. enter_apply. rewrite Hcheck.
  rewrite (check_other ts _ lam Hs H1 H2).
  f_equal. apply with_params_id.
Qed.

Lemma apply_missing :
  ps !! "lambda" = None ->
  apply self ts = (Raise (KeyError "lambda"), self).
Proof using All.
  intros Hs. enter_apply. rewrite Hcheck.
  rewrite (check_missing ts _ Hs).
  f_equal. apply with_params_id.
Qed.
End ApplyCases.

(** ** Construction *)

(** C7. For each of L1, L2 and L3, construction from a hyperparameter
    mapping without a ['lambda'] key (the empty mapping included) succeeds,
    and the stored ['lambda'] is the scalar 1e-5, that is 1/100000. *)
Theorem lambda_defaults_when_omitted (c : regclass) (d : gmap string pyval)
    (v : bool) :
  weighted c ->
  d !! "lambda" = None ->
  exists self,
    __init__ c d v = Ok self /\
    cls self = c /\
    _regularizer_parameters self !! "lambda" = Some (PyNum (1 # 100000)).
Proof.
  intros Hc Hd. eexists. split; [apply (init_weighted c d v Hc)|].
  split; [reflexivity|]. cbn [_regularizer_parameters].
  rewrite Hd. apply lookup_insert_eq.
Qed.

Lemma lambda_defaults_when_omitted_witness :
  exists self,
    __init__ L2Regularizer ∅ true = Ok self /\
    cls self = L2Regularizer /\
    _regularizer_parameters self !! "lambda" = Some (PyNum (1 # 100000)).
Proof.
  apply (lambda_defaults_when_omitted L2Regularizer ∅ true).
  - right; left; reflexivity.
  - reflexivity.
Defined.

(** ** Validation and broadcast *)

(** C1. For each of L1, L2 and L3 with a scalar ['lambda'] [x] and [n]
    tensors: validation stores the list of exactly [n] copies of [x], and
    [apply] returns the very loss that an instance built with the explicit
    list of [n] copies returns. *)
Theorem scalar_lambda_broadcast (c : regclass) (x : Q) (d : gmap string pyval)
    (v : bool) (ts : list tensor) :
  weighted c ->
  exists self self_list checked loss,
    __init__ c (<["lambda" := PyNum x]> d) v = Ok self /\
    __init__ c (<["lambda" := PyList (replicate (length ts) x)]> d) v
      = Ok self_list /\
    run (_inputs_check c ts) self = (Ok tt, checked) /\
    _regularizer_parameters checked !! "lambda"
      = Some (PyList (replicate (length ts) x)) /\
    length (replicate (length ts) x) = length ts /\
    apply self ts = (Ok loss, checked) /\
    apply self_list ts = (Ok loss, self_list).
Proof.
  intros Hc. destruct (weighted_hooks c Hc) as (pen & Hi & Hk & Ha).
  do 4 eexists.
  split; [apply (init_weighted _ _ v Hc)|].
  split; [apply (init_weighted _ _ v Hc)|].
  rewrite !lookup_insert_eq. cbn [default].
  split.
  { unfold run. cbn [cls _regularizer_parameters]. rewrite Hk.
    rewrite (check_scalar ts _ x) by apply lookup_insert_eq. reflexivity. }
  split; [apply lookup_insert_eq|].
  split; [apply length_replicate|].
  split.
  - eapply apply_scalar; [exact Hk | exact Ha | apply lookup_insert_eq].
  - eapply apply_list_ok;
      [exact Hk | exact Ha | apply lookup_insert_eq | apply length_replicate].
Qed.

Lemma scalar_lambda_broadcast_witness :
  exists self self_list checked loss,
    __init__ L1Regularizer (<["lambda" := PyNum (1 # 2)]> ∅) false = Ok self /\
    __init__ L1Regularizer
      (<["lambda" := PyList (replicate (length [vector [-1; 2]%Q; vector [3%Q]])
                                       (1 # 2))]> ∅) false = Ok self_list /\
    run (_inputs_check L1Regularizer [vector [-1; 2]%Q; vector [3%Q]]) self
      = (Ok tt, checked) /\
    _regularizer_parameters checked !! "lambda"
      = Some (PyList (replicate (length [vector [-1; 2]%Q; vector [3%Q]]) (1 # 2))) /\
    length (replicate (length [vector [-1; 2]%Q; vector [3%Q]]) (1 # 2))
      = length [vector [-1; 2]%Q; vector [3%Q]] /\
    apply self [vector [-1; 2]%Q; vector [3%Q]] = (Ok loss, checked) /\
    apply self_list [vector [-1; 2]%Q; vector [3%Q]] = (Ok loss, self_list).
Proof.
  apply (scalar_lambda_broadcast L1Regularizer (1 # 2) ∅ false
           [vector [-1; 2]%Q; vector [3%Q]]).
  left; reflexivity.
Defined.

(** C2. For each of L1, L2 and L3: when ['lambda'] is not a scalar and is
    either a list whose length differs from the number of tensors or not a
    list at all, [apply] raises the value error and the stored ['lambda'] is
    left as it was, neither truncated nor padded. *)
Theorem mismatched_lambda_raises (c : regclass) (lam : pyval)
    (d : gmap string pyval) (v : bool) (ts : list tensor) :
  weighted c ->
  isscalar lam = None ->
  (forall ws, lam = PyList ws -> length ws <> length ts) ->
  exists self,
    __init__ c (<["lambda" := lam]> d) v = Ok self /\
    _regularizer_parameters self !! "lambda" = Some lam /\
    apply self ts = (Raise (ValueError weight_error_msg), self).
Proof.
  intros Hc Hsc Hlen. destruct (weighted_hooks c Hc) as (pen & Hi & Hk & Ha).
  eexists. split; [apply (init_weighted _ _ v Hc)|].
  rewrite lookup_insert_eq. cbn [default _regularizer_parameters].
  split; [apply lookup_insert_eq|].
  destruct lam as [x | | ws | ws]; try discriminate.
  - eapply apply_other;
      [exact Hk | exact Ha | apply lookup_insert_eq | reflexivity..].
  - eapply apply_list_bad; [exact Hk | exact Ha | apply lookup_insert_eq |].
    apply Hlen; reflexivity.
  - eapply apply_other;
      [exact Hk | exact Ha | apply lookup_insert_eq | reflexivity..].
Qed.

Lemma mismatched_lambda_raises_witness :
  (exists self,
     __init__ L3Regularizer (<["lambda" := PyList [1; 2; 3]%Q]> ∅) false = Ok self /\
     _regularizer_parameters self !! "lambda" = Some (PyList [1; 2; 3]%Q) /\
     apply self [vector [4; 5]%Q; vector [6%Q]]
       = (Raise (ValueError weight_error_msg), self)) /\
  (exists self,
     __init__ L2Regularizer (<["lambda" := PyTuple [1; 2]%Q]> ∅) false = Ok self /\
     _regularizer_parameters self !! "lambda" = Some (PyTuple [1; 2]%Q) /\
     apply self [vector [4; 5]%Q; vector [6%Q]]
       = (Raise (ValueError weight_error_msg), self)).
Proof.
  split.
  - apply (mismatched_lambda_raises L3Regularizer (PyList [1; 2; 3]%Q) ∅ false
             [vector [4; 5]%Q; vector [6%Q]]).
    + right; right; reflexivity.
    + reflexivity.
    + intros ws Hws. injection Hws as <-. simpl. discriminate.
  - apply (mismatched_lambda_raises L2Regularizer (PyTuple [1; 2]%Q) ∅ false
             [vector [4; 5]%Q; vector [6%Q]]).
    + right; left; reflexivity.
    + reflexivity.
    + intros ws Hws. discriminate Hws.
Defined.

(** ** The losses *)

(** The three weighted classes on a per-tensor weight list of matching
    length: the instance is left as it was and the loss agrees with the
    closed form of the class's element-wise penalty. *)
Lemma weighted_apply_closed_form (c : regclass) (pen : tensor -> tensor)
    (f : Q -> Q) (ws : list Q) (ts : list tensor) (d : gmap string pyval)
    (v : bool) :
  weighted c ->
  _apply c = Weighted._apply pen ->
  (forall t, tf_reduce_sum (pen t) == Qsum (map f (entries t)))%Q ->
  length ws = length ts ->
  exists self loss,
    __init__ c (<["lambda" := PyList ws]> d) v = Ok self /\
    apply self ts = (Ok loss, self) /\
    (loss == weighted_penalty f ws ts)%Q.
Proof.
  intros Hc Ha Hpen Hlen.
  destruct (weighted_hooks c Hc) as (pen' & Hi & Hk & _).
  do 2 eexists. split; [apply (init_weighted _ _ v Hc)|].
  rewrite lookup_insert_eq. cbn [default].
  split.
  - eapply apply_list_ok; [exact Hk | exact Ha | apply lookup_insert_eq | exact Hlen].
  - rewrite (loop_result_closed_form pen f Hpen). ring.
Qed.

(** C3. On a weight list of matching length, [L1Regularizer.apply] returns
    the sum over tensors of weight_i times the sum of the absolute values of
    tensor_i; on the tensors [[-1,2],[3]] with lambda [[1,1]] it returns 6. *)
Theorem L1_apply_closed_form :
  (forall (ws : list Q) (ts : list tensor) (d : gmap string pyval) (v : bool),
      length ws = length ts ->
      exists self loss,
        __init__ L1Regularizer (<["lambda" := PyList ws]> d) v = Ok self /\
        apply self ts = (Ok loss, self) /\
        (loss == weighted_penalty abs_value ws ts)%Q) /\
  (exists self,
      __init__ L1Regularizer (<["lambda" := PyList [1; 1]%Q]> ∅) false = Ok self /\
      apply self [vector [-1; 2]%Q; vector [3%Q]] = (Ok 6%Q, self)).
Proof.
  split.
  - intros ws ts d v Hlen.
    apply (weighted_apply_closed_form L1Regularizer tf_abs);
      [left; reflexivity | reflexivity | apply reduce_sum_abs | exact Hlen].
  - eexists. split; reflexivity.
Qed.

Lemma L1_apply_closed_form_witness :
  exists self loss,
    __init__ L1Regularizer (<["lambda" := PyList [2; 3]%Q]> ∅) false = Ok self /\
    apply self [vector [-1; 2]%Q; vector [-5%Q]] = (Ok loss, self) /\
    (loss == weighted_penalty abs_value [2; 3]%Q [vector [-1; 2]%Q; vector [-5%Q]])%Q.
Proof.
  apply (proj1 L1_apply_closed_form [2; 3]%Q [vector [-1; 2]%Q; vector [-5%Q]] ∅ false).
  reflexivity.
Defined.

(** C4. On a weight list of matching length, [L2Regularizer.apply] returns
    the sum over tensors of weight_i times the sum of the squares of
    tensor_i; on the tensors [[-1,2]] with lambda [[0.5]] it returns 2.5. *)
Theorem L2_apply_closed_form :
  (forall (ws : list Q) (ts : list tensor) (d : gmap string pyval) (v : bool),
      length ws = length ts ->
      exists self loss,
        __init__ L2Regularizer (<["lambda" := PyList ws]> d) v = Ok self /\
        apply self ts = (Ok loss, self) /\
        (loss == weighted_penalty squared ws ts)%Q) /\
  (exists self,
      __init__ L2Regularizer (<["lambda" := PyList [1 # 2]]> ∅) false = Ok self /\
      apply self [vector [-1; 2]%Q] = (Ok (5 # 2), self)).
Proof.
  split.
  - intros ws ts d v Hlen.
    apply (weighted_apply_closed_form L2Regularizer tf_square);
      [right; left; reflexivity | reflexivity | apply reduce_sum_square | exact Hlen].
  - eexists. split; reflexivity.
Qed.

Lemma L2_apply_closed_form_witness :
  exists self loss,
    __init__ L2Regularizer (<["lambda" := PyList [1 # 2; 3]%Q]> ∅) false = Ok self /\
    apply self [vector [-1; 2]%Q; vector [-5%Q]] = (Ok loss, self) /\
    (loss == weighted_penalty squared [1 # 2; 3]%Q [vector [-1; 2]%Q; vector [-5%Q]])%Q.
Proof.
  apply (proj1 L2_apply_closed_form [1 # 2; 3]%Q [vector [-1; 2]%Q; vector [-5%Q]] ∅ false).
  reflexivity.
Defined.

(** C5. On a weight list of matching length, [L3Regularizer.apply] returns
    the sum over tensors of weight_i times the sum of the cubed absolute
    values of tensor_i; on the tensors [[-2]] with lambda [[1]] it returns 8. *)
Theorem L3_apply_closed_form :
  (forall (ws : list Q) (ts : list tensor) (d : gmap string pyval) (v : bool),
      length ws = length ts ->
      exists self loss,
        __init__ L3Regularizer (<["lambda" := PyList ws]> d) v = Ok self /\
        apply self ts = (Ok loss, self) /\
        (loss == weighted_penalty cubed_abs ws ts)%Q) /\
  (exists self,
      __init__ L3Regularizer (<["lambda" := PyList [1%Q]]> ∅) false = Ok self /\
      apply self [vector [-2%Q]] = (Ok 8%Q, self)).
Proof.
  split.
  - intros ws ts d v Hlen.
    apply (weighted_apply_closed_form L3Regularizer (fun t => tf_pow (tf_abs t) 3));
      [right; right; reflexivity | reflexivity | apply reduce_sum_cube | exact Hlen].
  - eexists. split; reflexivity.
Qed.

Lemma L3_apply_closed_form_witness :
  exists self loss,
    __init__ L3Regularizer (<["lambda" := PyList [2; 3]%Q]> ∅) false = Ok self /\
    apply self [vector [-1; 2]%Q; vector [-5%Q]] = (Ok loss, self) /\
    (loss == weighted_penalty cubed_abs [2; 3]%Q [vector [-1; 2]%Q; vector [-5%Q]])%Q.
Proof.
  apply (proj1 L3_apply_closed_form [2; 3]%Q [vector [-1; 2]%Q; vector [-5%Q]] ∅ false).
  reflexivity.
Defined.

(** C6. [NoRegularizer.apply] returns the constant zero for every list of
    tensors, whatever their number and shapes, and whatever mapping the
    instance was built from. *)
Theorem NoRegularizer_apply_zero (d : gmap string pyval) (v : bool)
    (ts : list tensor) :
  exists self,
    __init__ NoRegularizer d v = Ok self /\
    apply self ts = (Ok 0%Q, self).
Proof.
  eexists. split; reflexivity.
Qed.

(** ** The state query *)

(** Every registered class is found in the registry under its own name and
    carries no class parameter. *)
Lemma registry_lookup (c : regclass) :
  c ∈ [NoRegularizer; L1Regularizer; L2Regularizer; L3Regularizer] ->
  REGULARIZER_REGISTRY !! name c = Some c /\ class_params c = ∅.
Proof.
  intros Hc. repeat (apply elem_of_cons in Hc as [-> | Hc]);
    [split; vm_compute; reflexivity..|].
  apply elem_of_nil in Hc. contradiction.
Qed.

(** C8 (the code departs from the claim). For each of the four registered
    classes and every parameter name, [get_state] answers [None]: no class
    registers a class parameter, and an absent name is read with [dict.get],
    so the handler that would report an invalid key is never reached. *)
Theorem get_state_absent_name_returns_None (d : gmap string pyval) (v : bool)
    (param_name : string) :
  Forall (fun c => exists self,
              __init__ c d v = Ok self /\
              get_state self param_name = Ok PyNone)
         [NoRegularizer; L1Regularizer; L2Regularizer; L3Regularizer].
Proof.
  apply Forall_forall. intros c Hc.
  destruct (registry_lookup c Hc) as [Hreg Hcp].
  assert (Hinit : exists ps, __init__ c d v
                             = Ok {| cls := c; _regularizer_parameters := ps |}).
  { repeat (apply elem_of_cons in Hc as [-> | Hc]);
      [eexists; reflexivity..|].
    apply elem_of_nil in Hc. contradiction. }
  destruct Hinit as [ps Hinit]. eexists. split; [exact Hinit|].
  unfold get_state. cbn [cls]. rewrite Hreg, Hcp, lookup_empty. reflexivity.
Qed.


(** ** What [apply] changes *)

(** C9. For an instance of L1, L2 or L3 in any state: [apply] either leaves
    the instance as it was or replaces a scalar ['lambda'] by its broadcast
    list and touches nothing else; after a successful call ['lambda'] is a
    list, and every further call with as many tensors succeeds, leaves the
    instance unchanged and, on the same tensors, returns the same loss; a
    call that raises the value error leaves the instance unchanged. *)
Theorem apply_frame (self : instance) (ts : list tensor) (r : outcome Q)
    (self' : instance) :
  weighted (cls self) ->
  apply self ts = (r, self') ->
  (self' = self \/
   exists x,
     _regularizer_parameters self !! "lambda" = Some (PyNum x) /\
     self' = with_params self
               (<["lambda" := PyList (replicate (length ts) x)]>
                  (_regularizer_parameters self))) /\
  (forall loss, r = Ok loss ->
     exists ws,
       _regularizer_parameters self' !! "lambda" = Some (PyList ws) /\
       length ws = length ts /\
       apply self' ts = (Ok loss, self') /\
       forall ts2, length ts2 = length ts ->
         exists loss2, apply self' ts2 = (Ok loss2, self')) /\
  (forall msg, r = Raise (ValueError msg) -> self' = self).
Proof.
  intros Hc Happ.
  destruct (weighted_hooks _ Hc) as (pen & _ & Hk & Ha).
  destruct (_regularizer_parameters self !! "lambda")
    as [[x | | ws | ws] |] eqn:Hlam.
  - (* scalar: broadcast *)
    rewrite (apply_scalar self pen Hk Ha ts x Hlam) in Happ.
    injection Happ as <- <-.
    split; [right; exists x; split; reflexivity|].
    split; [|discriminate].
    intros loss [= <-].
    exists (replicate (length ts) x).
    split; [apply lookup_insert_eq|].
    split; [apply length_replicate|].
    split.
    + eapply apply_list_ok;
        [exact Hk | exact Ha | apply lookup_insert_eq | apply length_replicate].
    + intros ts2 Hlen. eexists.
      eapply apply_list_ok; [exact Hk | exact Ha | apply lookup_insert_eq |].
      rewrite length_replicate. symmetry; exact Hlen.
  - (* None *)
    rewrite (apply_other self pen Hk Ha ts PyNone Hlam eq_refl eq_refl) in Happ.
    injection Happ as <- <-.
    split; [left; reflexivity|]. split; [discriminate | reflexivity].
  - (* list *)
    destruct (Nat.eq_dec (length ws) (length ts)) as [Hlen | Hlen].
    + rewrite (apply_list_ok self pen Hk Ha ts ws Hlam Hlen) in Happ.
      injection Happ as <- <-.
      split; [left; reflexivity|]. split; [|reflexivity].
      intros loss [= <-]. exists ws.
      split; [exact Hlam|]. split; [exact Hlen|].
      split; [apply (apply_list_ok self pen Hk Ha ts ws Hlam Hlen)|].
      intros ts2 Hlen2. eexists.
      apply (apply_list_ok self pen Hk Ha ts2 ws Hlam). congruence.
    + rewrite (apply_list_bad self pen Hk Ha ts ws Hlam Hlen) in Happ.
      injection Happ as <- <-.
      split; [left; reflexivity|]. split; [discriminate | reflexivity].
  - (* tuple *)
    rewrite (apply_other self pen Hk Ha ts (PyTuple ws) Hlam eq_refl eq_refl) in Happ.
    injection Happ as <- <-.
    split; [left; reflexivity|]. split; [discriminate | reflexivity].
  - (* no ['lambda'] entry *)
    rewrite (apply_missing self pen Hk Ha ts Hlam) in Happ.
    injection Happ as <- <-.
    split; [left; reflexivity|]. split; [discriminate | reflexivity].
Qed.

Lemma apply_frame_witness :
  (snd (apply sample_instance sample_tensors) = sample_instance \/
   exists x,
     _regularizer_parameters sample_instance !! "lambda" = Some (PyNum x) /\
     snd (apply sample_instance sample_tensors)
     = with_params sample_instance
         (<["lambda" := PyList (replicate (length sample_tensors) x)]>
            (_regularizer_parameters sample_instance))) /\
  (forall loss, fst (apply sample_instance sample_tensors) = Ok loss ->
     exists ws,
       _regularizer_parameters (snd (apply sample_instance sample_tensors)) !! "lambda"
         = Some (PyList ws) /\
       length ws = length sample_tensors /\
       apply (snd (apply sample_instance sample_tensors)) sample_tensors
         = (Ok loss, snd (apply sample_instance sample_tensors)) /\
       forall ts2, length ts2 = length sample_tensors ->
         exists loss2,
           apply (snd (apply sample_instance sample_tensors)) ts2
           = (Ok loss2, snd (apply sample_instance sample_tensors))) /\
  (forall msg, fst (apply sample_instance sample_tensors) = Raise (ValueError msg) ->
     snd (apply sample_instance sample_tensors) = sample_instance).
Proof.
  apply (apply_frame sample_instance sample_tensors
           (fst (apply sample_instance sample_tensors))
           (snd (apply sample_instance sample_tensors))).
  - left; reflexivity.
  - reflexivity.
Defined.

(** ** An instance built with a scalar is bound to its first tensor count *)

Lemma apply_seq_bound (self : instance) (pen : tensor -> tensor) (ws : list Q) :
  _inputs_check (cls self) = Weighted._inputs_check ->
  _apply (cls self) = Weighted._apply pen ->
  _regularizer_parameters self !! "lambda" = Some (PyList ws) ->
  forall calls,
    exists rs,
      apply_seq self calls = (rs, self) /\
      Forall2 (fun ts' r =>
                 (length ts' <> length ws ->
                  r = Raise (ValueError weight_error_msg)) /\
                 (length ts' = length ws -> exists loss, r = Ok loss))
              calls rs.
Proof.
  intros Hk Ha Hlam. induction calls as [|ts' calls [rs [Hseq Hall]]].
  - exists []. split; [reflexivity | constructor].
  - destruct (Nat.eq_dec (length ws) (length ts')) as [Hlen | Hlen].
    + eexists. split.
      * cbn [apply_seq].
        rewrite (apply_list_ok self pen Hk Ha ts' ws Hlam Hlen), Hseq.
        reflexivity.
      * constructor; [|exact Hall]. split.
        -- intros Hne. congruence.
        -- intros _. eexists; reflexivity.
    + eexists. split.
      * cbn [apply_seq].
        rewrite (apply_list_bad self pen Hk Ha ts' ws Hlam Hlen), Hseq.
        reflexivity.
      * constructor; [|exact Hall]. split.
        -- intros _. reflexivity.
        -- intros Heq. congruence.
Qed.

(** C10. For each of L1, L2 and L3 built with a scalar ['lambda'] [x]: the
    first [apply], on [n] tensors, succeeds and stores the list of [n] copies
    of [x]; from then on, through any sequence of further calls, the instance
    stays as it is, every call with a number of tensors other than [n]
    raises the value error and every call with [n] tensors succeeds.  With
    [n = 0] the stored list is empty and the first call returns 0. *)
Theorem scalar_lambda_binds_tensor_count (c : regclass) (x : Q)
    (d : gmap string pyval) (v : bool) (ts : list tensor) :
  weighted c ->
  exists self loss bound,
    __init__ c (<["lambda" := PyNum x]> d) v = Ok self /\
    _regularizer_parameters self !! "lambda" = Some (PyNum x) /\
    apply self ts = (Ok loss, bound) /\
    _regularizer_parameters bound !! "lambda"
      = Some (PyList (replicate (length ts) x)) /\
    (forall ts', length ts' <> length ts ->
       apply bound ts' = (Raise (ValueError weight_error_msg), bound)) /\
    (forall calls, exists rs,
       apply_seq bound calls = (rs, bound) /\
       Forall2 (fun ts' r =>
                  (length ts' <> length ts ->
                   r = Raise (ValueError weight_error_msg)) /\
                  (length ts' = length ts -> exists loss', r = Ok loss'))
               calls rs) /\
    (ts = [] ->
       loss = 0%Q /\ _regularizer_parameters bound !! "lambda" = Some (PyList [])).
Proof.
  intros Hc. destruct (weighted_hooks c Hc) as (pen & Hi & Hk & Ha).
  do 3 eexists.
  split; [apply (init_weighted _ _ v Hc)|].
  rewrite lookup_insert_eq. cbn [default _regularizer_parameters].
  split; [apply lookup_insert_eq|].
  split; [eapply apply_scalar; [exact Hk | exact Ha | apply lookup_insert_eq]|].
  cbn [with_params cls _regularizer_parameters].
  split; [apply lookup_insert_eq|].
  split.
  { intros ts' Hne.
    eapply apply_list_bad; [exact Hk | exact Ha | apply lookup_insert_eq |].
    rewrite length_replicate. congruence. }
  split.
  { intros calls.
    pose proof (apply_seq_bound
                  {| cls := c;
                     _regularizer_parameters :=
                       <["lambda" := PyList (replicate (length ts) x)]>
                         (<["lambda" := PyNum x]> ∅) |}
                  pen (replicate (length ts) x) Hk Ha
                  (lookup_insert_eq _ _ _) calls) as Hseq.
    rewrite length_replicate in Hseq. exact Hseq. }
  intros ->. split; [reflexivity | apply lookup_insert_eq].
Qed.

Lemma scalar_lambda_binds_tensor_count_witness :
  (exists self loss bound,
     __init__ L3Regularizer (<["lambda" := PyNum (1 # 2)]> ∅) false = Ok self /\
     apply self sample_tensors = (Ok loss, bound) /\
     _regularizer_parameters bound !! "lambda"
       = Some (PyList (replicate (length sample_tensors) (1 # 2))) /\
     apply bound [vector [7%Q]] = (Raise (ValueError weight_error_msg), bound)) /\
  (exists self bound,
     __init__ L1Regularizer (<["lambda" := PyNum (1 # 2)]> ∅) false = Ok self /\
     apply self [] = (Ok 0%Q, bound) /\
     _regularizer_parameters bound !! "lambda" = Some (PyList []) /\
     apply bound [vector [7%Q]] = (Raise (ValueError weight_error_msg), bound)).
Proof.
  split.
  - destruct (scalar_lambda_binds_tensor_count L3Regularizer (1 # 2) ∅ false
                sample_tensors (or_intror (or_intror eq_refl)))
      as (self & loss & bound & Hinit & _ & Happ & Hlam & Hbad & _ & _).
    exists self, loss, bound. repeat split; try assumption.
    apply Hbad. simpl. lia.
  - destruct (scalar_lambda_binds_tensor_count L1Regularizer (1 # 2) ∅ false
                [] (or_introl eq_refl))
      as (self & loss & bound & Hinit & _ & Happ & _ & Hbad & _ & Hzero).
    destruct (Hzero eq_refl) as [-> Hlam].
    exists self, bound. repeat split; try assumption.
    apply Hbad. simpl. lia.
Defined.

(** * Further properties of the module *)

(** ** The registry *)





(** The registry after module load, written out. *)
Lemma registry_unfold :
  REGULARIZER_REGISTRY
  = <["L3" := L3Regularizer]> (<["L2" := L2Regularizer]>
      (<["L1" := L1Regularizer]> (<["None" := NoRegularizer]> ∅))).
Proof. reflexivity. Qed.

Lemma registry_entries (k : string) (c : regclass) :
  REGULARIZER_REGISTRY !! k = Some c ->
  c ∈ [NoRegularizer; L1Regularizer; L2Regularizer; L3Regularizer] /\ name c = k.
Proof.
  rewrite registry_unfold. intros H.
  repeat (apply lookup_insert_Some in H as [[<- <-] | [_ H]];
          [split; [set_solver | reflexivity] |]).
  rewrite lookup_empty in H. discriminate H.
Qed.

Lemma init_registered (c : regclass) (d : gmap string pyval) (v : bool) :
  c ∈ [NoRegularizer; L1Regularizer; L2Regularizer; L3Regularizer] ->
  exists self,
    __init__ c d v = Ok self /\
    cls self = c /\
    dom (_regularizer_parameters self)
    = (list_to_set (external_params c) : gset string).
Proof.
  intros Hc. repeat (apply elem_of_cons in Hc as [-> | Hc]);
    [eexists; split; [reflexivity|]; split; [reflexivity|]..|].
  - cbn. set_solver.
  - cbn. rewrite dom_insert_L. set_solver.
  - cbn. rewrite dom_insert_L. set_solver.
  - cbn. rewrite dom_insert_L. set_solver.
  - apply elem_of_nil in Hc. contradiction.
Qed.

(** X3. After module load the registry holds exactly the names "None", "L1",
    "L2" and "L3"; every class in it is stored under its own name, can be
    constructed from any hyperparameter mapping without error, and the keys
    its constructor stores are exactly the external parameters it was
    registered with. *)
Theorem registry_after_load :
  dom REGULARIZER_REGISTRY = ({["None"; "L1"; "L2"; "L3"]} : gset string) /\
  forall k c, REGULARIZER_REGISTRY !! k = Some c ->
    name c = k /\
    forall d v, exists self,
      __init__ c d v = Ok self /\
      cls self = c /\
      dom (_regularizer_parameters self)
      = (list_to_set (external_params c) : gset string).
Proof.
  split.
  - rewrite registry_unfold, !dom_insert_L, dom_empty_L. set_solver.
  - intros k c Hk. destruct (registry_entries k c Hk) as [Hc Hn].
    split; [exact Hn|]. intros d v. apply (init_registered c d v Hc).
Qed.

Lemma registry_after_load_witness :
  name L2Regularizer = "L2" /\
  forall d v, exists self,
    __init__ L2Regularizer d v = Ok self /\
    cls self = L2Regularizer /\
    dom (_regularizer_parameters self)
    = (list_to_set (external_params L2Regularizer) : gset string).
Proof.
  apply (proj2 registry_after_load "L2" L2Regularizer).
  reflexivity.
Defined.

(** ** The state query and the constructor *)





(** X6. Construction of L1, L2 and L3 never validates and never fails: whatever
    is supplied under ['lambda'] (a wrongly sized list or [None] included) is
    stored as it is, every other key of the mapping is dropped, and two
    mappings that agree on ['lambda'] give the same instance, whatever the
    verbosity flags. *)
Theorem weighted_init_keeps_only_lambda (c : regclass)
    (d1 d2 : gmap string pyval) (v1 v2 : bool) :
  weighted c ->
  d1 !! "lambda" = d2 !! "lambda" ->
  exists self,
    __init__ c d1 v1 = Ok self /\
    __init__ c d2 v2 = Ok self /\
    dom (_regularizer_parameters self) = ({["lambda"]} : gset string) /\
    forall lam, d1 !! "lambda" = Some lam ->
      _regularizer_parameters self !! "lambda" = Some lam.
Proof.
  intros Hc Hd. eexists.
  split; [apply (init_weighted c d1 v1 Hc)|].
  split; [rewrite Hd; apply (init_weighted c d2 v2 Hc)|].
  cbn [_regularizer_parameters]. split.
  - rewrite dom_insert_L, dom_empty_L. set_solver.
  - intros lam Hlam. rewrite Hlam. apply lookup_insert_eq.
Qed.

Lemma weighted_init_keeps_only_lambda_witness :
  exists self,
    __init__ L1Regularizer (<["lambda" := PyNone]> ∅) false = Ok self /\
    __init__ L1Regularizer (<["epochs" := PyNum 3]> (<["lambda" := PyNone]> ∅)) true
      = Ok self /\
    dom (_regularizer_parameters self) = ({["lambda"]} : gset string) /\
    forall lam, (<["lambda" := PyNone]> ∅ : gmap string pyval) !! "lambda" = Some lam ->
      _regularizer_parameters self !! "lambda" = Some lam.
Proof.
  apply (weighted_init_keeps_only_lambda L1Regularizer
           (<["lambda" := PyNone]> ∅)
           (<["epochs" := PyNum 3]> (<["lambda" := PyNone]> ∅)) false true).
  - left; reflexivity.
  - reflexivity.
Defined.

(** X7. [NoRegularizer] ignores its hyperparameters and its inputs altogether:
    whatever the mapping, the instance stores nothing, and through any
    sequence of calls every [apply] returns zero and leaves the instance as
    it is. *)
Theorem NoRegularizer_is_inert (d : gmap string pyval) (v : bool)
    (calls : list (list tensor)) :
  exists self,
    __init__ NoRegularizer d v = Ok self /\
    _regularizer_parameters self = ∅ /\
    apply_seq self calls = (map (fun _ => Ok 0%Q) calls, self).
Proof.
  eexists. split; [reflexivity|]. split; [reflexivity|].
  induction calls as [|ts calls IH]; [reflexivity|].
  cbn [apply_seq map].
  change (apply {| cls := NoRegularizer; _regularizer_parameters := ∅ |} ts)
    with (Ok 0%Q, {| cls := NoRegularizer; _regularizer_parameters := ∅ |}).
  cbv beta iota. rewrite IH. reflexivity.
Qed.

(** ** The input check and the loop, each on its own *)

(** X8. Running the input check twice in a row is the same as running it once,
    on every state of the parameter dictionary: a second check never
    re-broadcasts, never fails after a success, and a failed check has
    changed nothing that a retry could see. *)
Theorem inputs_check_idempotent (c : regclass) (ts : list tensor)
    (s : gmap string pyval) :
  weighted c ->
  (_inputs_check c ts ;;; _inputs_check c ts) s = _inputs_check c ts s.
Proof.
  intros Hc. destruct (weighted_hooks c Hc) as (pen & _ & Hk & _).
  rewrite Hk. unfold bind.
  destruct (s !! "lambda") as [[x | | ws | ws] |] eqn:Hlam.
  - rewrite (check_scalar ts s x Hlam).
    apply (check_list_ok ts _ (replicate (length ts) x)).
    + apply lookup_insert_eq.
    + apply length_replicate.
  - rewrite (check_other ts s PyNone Hlam eq_refl eq_refl). reflexivity.
  - destruct (Nat.eq_dec (length ws) (length ts)) as [Hlen | Hlen].
    + rewrite (check_list_ok ts s ws Hlam Hlen).
      apply (check_list_ok ts s ws Hlam Hlen).
    + rewrite (check_list_bad ts s ws Hlam Hlen). reflexivity.
  - rewrite (check_other ts s (PyTuple ws) Hlam eq_refl eq_refl). reflexivity.
  - rewrite (check_missing ts s Hlam). reflexivity.
Qed.

Lemma inputs_check_idempotent_witness :
  (_inputs_check L2Regularizer sample_tensors ;;;
   _inputs_check L2Regularizer sample_tensors)
    (<["lambda" := PyNum (1 # 2)]> ∅)
  = _inputs_check L2Regularizer sample_tensors (<["lambda" := PyNum (1 # 2)]> ∅).
Proof.
  apply (inputs_check_idempotent L2Regularizer sample_tensors
           (<["lambda" := PyNum (1 # 2)]> ∅)).
  right; left; reflexivity.
Defined.

Lemma apply_body_frame (pen : tensor -> tensor) (ts : list tensor) (i : nat)
    (acc : Q) (s : gmap string pyval) :
  snd (Weighted._apply_body pen ts i acc s) = s.
Proof.
  unfold Weighted._apply_body, bind, param_get, lift, ret.
  destruct (s !! "lambda") as [lam|]; [|reflexivity].
  destruct (getitem lam i); [|reflexivity].
  destruct (list_getitem ts i); reflexivity.
Qed.

Lemma for_range_frame (pen : tensor -> tensor) (ts : list tensor)
    (idx : list nat) (acc : Q) (s : gmap string pyval) :
  snd (for_range (Weighted._apply_body pen ts) idx acc s) = s.
Proof.
  revert acc. induction idx as [|i idx IH]; intros acc; [reflexivity|].
  cbn [for_range]. unfold bind at 1.
  pose proof (apply_body_frame pen ts i acc s) as Hb.
  destruct (Weighted._apply_body pen ts i acc s) as [[a | e] s1];
    cbn [snd] in Hb; subst s1; [apply IH | reflexivity].
Qed.

(** X9. [_apply] only reads: for each of the four registered classes, on any
    tensors and any state of the parameter dictionary, whether it returns or
    raises, the dictionary is left exactly as it was.  The broadcast of the
    input check is therefore the only write of [apply]. *)
Theorem apply_hook_reads_only (c : regclass) (ts : list tensor)
    (s : gmap string pyval) :
  c ∈ [NoRegularizer; L1Regularizer; L2Regularizer; L3Regularizer] ->
  snd (_apply c ts s) = s.
Proof.
  intros Hc. repeat (apply elem_of_cons in Hc as [-> | Hc]).
  - reflexivity.
  - apply (for_range_frame tf_abs).
  - apply (for_range_frame tf_square).
  - apply (for_range_frame (fun t => tf_pow (tf_abs t) 3)).
  - apply elem_of_nil in Hc. contradiction.
Qed.

Lemma apply_hook_reads_only_witness :
  snd (_apply L3Regularizer sample_tensors (<["lambda" := PyList [1%Q]]> ∅))
  = <["lambda" := PyList [1%Q]]> ∅.
Proof.
  apply (apply_hook_reads_only L3Regularizer sample_tensors
           (<["lambda" := PyList [1%Q]]> ∅)).
  repeat constructor.
Defined.

(** The loop on a subscriptable ['lambda'], with no assumption on its
    length. *)
Lemma for_range_outcome (pen : tensor -> tensor) (lam : pyval) (ws : list Q)
    (ts : list tensor) (s : gmap string pyval) :
  s !! "lambda" = Some lam -> items lam = Some ws ->
  forall ts2 ws2 ws1 ts1 acc,
    ws = ws1 ++ ws2 -> ts = ts1 ++ ts2 -> length ws1 = length ts1 ->
    for_range (Weighted._apply_body pen ts) (seq (length ts1) (length ts2)) acc s
    = (loop_outcome pen ws2 ts2 acc, s).
Proof.
  intros Hs Hit.
  assert (Hget : forall i, getitem lam i
                           = match ws !! i with
                             | Some x => Ok x | None => Raise IndexError end).
  { intros i. destruct lam; try discriminate; injection Hit as ->; reflexivity. }
  induction ts2 as [|t ts2 IH]; intros ws2 ws1 ts1 acc Hws Hts H1; [reflexivity|].
  cbn [length seq for_range loop_outcome].
  unfold bind at 1. unfold Weighted._apply_body at 1.
  unfold bind, param_get, lift, ret. rewrite Hs, Hget.
  destruct ws2 as [|w ws2].
  - rewrite app_nil_r in Hws. subst ws.
    rewrite (lookup_ge_None_2 ws1 (length ts1)) by lia. reflexivity.
  - rewrite Hws, <- H1, list_lookup_middle by reflexivity.
    unfold list_getitem. rewrite Hts, H1, list_lookup_middle by reflexivity.
    specialize (IH ws2 (ws1 ++ [w]) (ts1 ++ [t])).
    rewrite !length_app in IH. simpl in IH. rewrite !Nat.add_1_r in IH.
    rewrite <- Hts. apply IH.
    + rewrite <- app_assoc. exact Hws.
    + rewrite <- app_assoc. exact Hts.
    + lia.
Qed.

Lemma weighted_apply_unchecked (pen : tensor -> tensor) (lam : pyval)
    (ws : list Q) (ts : list tensor) (s : gmap string pyval) :
  s !! "lambda" = Some lam -> items lam = Some ws ->
  Weighted._apply pen ts s = (loop_outcome pen ws ts 0%Q, s).
Proof.
  intros Hs Hit. unfold Weighted._apply.
  exact (for_range_outcome pen lam ws ts s Hs Hit ts ws [] [] 0%Q
           eq_refl eq_refl eq_refl).
Qed.

Lemma loop_outcome_short (pen : tensor -> tensor) (ws : list Q)
    (ts : list tensor) (acc : Q) :
  length ws < length ts -> loop_outcome pen ws ts acc = Raise IndexError.
Proof.
  revert ws acc. induction ts as [|t ts IH]; intros [|w ws] acc Hlen;
    simpl in *; try lia; [reflexivity|].
  apply IH. lia.
Qed.

Lemma loop_outcome_take (pen : tensor -> tensor) (ws : list Q)
    (ts : list tensor) (acc : Q) :
  length ts <= length ws ->
  loop_outcome pen ws ts acc
  = Ok (loop_result pen (take (length ts) ws) ts acc) /\
  loop_outcome pen (take (length ts) ws) ts acc
  = Ok (loop_result pen (take (length ts) ws) ts acc).
Proof.
  unfold loop_result.
  revert ws acc. induction ts as [|t ts IH]; intros [|w ws] acc Hlen;
    simpl in *; try lia; try (split; reflexivity).
  apply IH. lia.
Qed.

(** X10. What the input check protects the loop from.  [_apply] of L1, L2 or L3
    called directly on a list or tuple of weights: with fewer weights than
    tensors it raises [IndexError]; with at least as many it succeeds and
    silently ignores the surplus, returning what it returns on the list cut
    to the number of tensors. *)
Theorem apply_hook_unchecked_lengths (c : regclass) (lam : pyval)
    (ws : list Q) (ts : list tensor) (s : gmap string pyval) :
  weighted c ->
  s !! "lambda" = Some lam -> items lam = Some ws ->
  (length ws < length ts -> _apply c ts s = (Raise IndexError, s)) /\
  (length ts <= length ws ->
   exists loss,
     _apply c ts s = (Ok loss, s) /\
     _apply c ts (<["lambda" := PyList (take (length ts) ws)]> s)
     = (Ok loss, <["lambda" := PyList (take (length ts) ws)]> s)).
Proof.
  intros Hc Hs Hit. destruct (weighted_hooks c Hc) as (pen & _ & _ & Ha).
  rewrite Ha. rewrite (weighted_apply_unchecked pen lam ws ts s Hs Hit).
  split; intros Hlen.
  - rewrite (loop_outcome_short pen ws ts _ Hlen). reflexivity.
  - destruct (loop_outcome_take pen ws ts 0%Q Hlen) as [H1 H2].
    eexists. split; [rewrite H1; reflexivity|].
    rewrite (weighted_apply_unchecked pen (PyList (take (length ts) ws))
               (take (length ts) ws) ts _ (lookup_insert_eq _ _ _) eq_refl).
    rewrite H2. reflexivity.
Qed.

Lemma apply_hook_unchecked_lengths_witness :
  _apply L1Regularizer sample_tensors (<["lambda" := PyTuple [1%Q]]> ∅)
  = (Raise IndexError, <["lambda" := PyTuple [1%Q]]> ∅) /\
  exists loss,
    _apply L1Regularizer sample_tensors (<["lambda" := PyList [1; 1; 9]%Q]> ∅)
    = (Ok loss, <["lambda" := PyList [1; 1; 9]%Q]> ∅) /\
    _apply L1Regularizer sample_tensors
      (<["lambda" := PyList (take (length sample_tensors) [1; 1; 9]%Q)]>
         (<["lambda" := PyList [1; 1; 9]%Q]> ∅))
    = (Ok loss, <["lambda" := PyList (take (length sample_tensors) [1; 1; 9]%Q)]>
                  (<["lambda" := PyList [1; 1; 9]%Q]> ∅)).
Proof.
  split.
  - refine (proj1 (apply_hook_unchecked_lengths L1Regularizer (PyTuple [1%Q]) [1%Q]
                     sample_tensors (<["lambda" := PyTuple [1%Q]]> ∅) _ _ _) _).
    + left; reflexivity.
    + apply lookup_insert_eq.
    + reflexivity.
    + simpl. lia.
  - refine (proj2 (apply_hook_unchecked_lengths L1Regularizer (PyList [1; 1; 9]%Q)
                     [1; 1; 9]%Q sample_tensors
                     (<["lambda" := PyList [1; 1; 9]%Q]> ∅) _ _ _) _).
    + left; reflexivity.
    + apply lookup_insert_eq.
    + reflexivity.
    + simpl. lia.
Defined.

(** X11. [_apply] of L1, L2 or L3 called directly, the remaining cases: with no
    tensors it returns 0 without looking at ['lambda'] at all; with at least
    one tensor it raises [KeyError] when ['lambda'] is absent and
    [TypeError] when ['lambda'] is a number or [None], which cannot be
    subscripted. *)
Theorem apply_hook_unchecked_errors (c : regclass) (ts : list tensor)
    (s : gmap string pyval) :
  weighted c ->
  _apply c [] s = (Ok 0%Q, s) /\
  (ts <> [] -> s !! "lambda" = None ->
   _apply c ts s = (Raise (KeyError "lambda"), s)) /\
  (forall lam, ts <> [] -> s !! "lambda" = Some lam -> items lam = None ->
   _apply c ts s = (Raise TypeError, s)).
Proof.
  intros Hc. destruct (weighted_hooks c Hc) as (pen & _ & _ & Ha).
  rewrite Ha. split; [reflexivity|].
  split.
  - intros Hts Hs. destruct ts as [|t ts]; [contradiction|].
    unfold Weighted._apply. cbn [length seq for_range].
    unfold bind at 1. unfold Weighted._apply_body, bind, param_get.
    rewrite Hs. reflexivity.
  - intros lam Hts Hs Hit. destruct ts as [|t ts]; [contradiction|].
    unfold Weighted._apply. cbn [length seq for_range].
    unfold bind at 1. unfold Weighted._apply_body, bind, param_get, lift.
    rewrite Hs. destruct lam; try discriminate Hit; reflexivity.
Qed.

Lemma apply_hook_unchecked_errors_witness :
  _apply L2Regularizer [] ∅ = (Ok 0%Q, ∅) /\
  _apply L2Regularizer sample_tensors ∅ = (Raise (KeyError "lambda"), ∅) /\
  _apply L2Regularizer sample_tensors (<["lambda" := PyNum (1 # 2)]> ∅)
  = (Raise TypeError, <["lambda" := PyNum (1 # 2)]> ∅).
Proof.
  split; [|split].
  - refine (proj1 (apply_hook_unchecked_errors L2Regularizer [] ∅ _)).
    right; left; reflexivity.
  - refine (proj1 (proj2 (apply_hook_unchecked_errors L2Regularizer sample_tensors ∅ _))
              _ _).
    + right; left; reflexivity.
    + discriminate.
    + reflexivity.
  - refine (proj2 (proj2 (apply_hook_unchecked_errors L2Regularizer sample_tensors
                            (<["lambda" := PyNum (1 # 2)]> ∅) _))
              (PyNum (1 # 2)) _ _ _).
    + right; left; reflexivity.
    + discriminate.
    + apply lookup_insert_eq.
    + reflexivity.
Defined.

(** ** [apply] as a whole *)

Lemma regularization_loss_accepted (c : regclass) (pen : tensor -> tensor)
    (lam : pyval) (ts : list tensor) :
  weighted c -> _apply c = Weighted._apply pen ->
  accepts lam (length ts) = true ->
  regularization_loss c lam ts
  = Ok (loop_result pen (weights_of lam (length ts)) ts 0%Q).
Proof.
  intros Hc Ha Hacc. destruct (weighted_hooks c Hc) as (pen' & _ & Hk & _).
  unfold regularization_loss. rewrite (init_weighted c _ false Hc).
  rewrite lookup_insert_eq. cbn [default].
  destruct lam as [x | | ws | ws]; try discriminate Hacc; cbn [weights_of].
  - erewrite apply_scalar; [reflexivity | exact Hk | exact Ha | apply lookup_insert_eq].
  - apply Nat.eqb_eq in Hacc.
    erewrite apply_list_ok;
      [reflexivity | exact Hk | exact Ha | apply lookup_insert_eq | exact Hacc].
Qed.

Lemma regularization_loss_rejected (c : regclass) (lam : pyval)
    (ts : list tensor) :
  weighted c ->
  accepts lam (length ts) = false ->
  regularization_loss c lam ts = Raise (ValueError weight_error_msg).
Proof.
  intros Hc Hacc. destruct (weighted_hooks c Hc) as (pen & _ & Hk & Ha).
  unfold regularization_loss. rewrite (init_weighted c _ false Hc).
  rewrite lookup_insert_eq. cbn [default].
  destruct lam as [x | | ws | ws]; try discriminate Hacc.
  - erewrite apply_other;
      [reflexivity | exact Hk | exact Ha | apply lookup_insert_eq | reflexivity..].
  - apply Nat.eqb_neq in Hacc.
    erewrite apply_list_bad;
      [reflexivity | exact Hk | exact Ha | apply lookup_insert_eq | exact Hacc].
  - erewrite apply_other;
      [reflexivity | exact Hk | exact Ha | apply lookup_insert_eq | reflexivity..].
Qed.







(** ** The algebra of the losses *)

Section PenaltyAlgebra.
Local Open Scope Q_scope.

Lemma Qsum_app (xs ys : list Q) : Qsum (xs ++ ys) == Qsum xs + Qsum ys.
Proof.
  induction xs as [|x xs IH]; simpl; [ring|]. rewrite IH. ring.
Qed.

Lemma Qsum_map_nonneg (f : Q -> Q) (xs : list Q) :
  (forall x, 0 <= f x) -> 0 <= Qsum (map f xs).
Proof.
  intros Hf. induction xs as [|x xs IH]; simpl; [apply Qle_refl|].
  rewrite <- (Qplus_0_l 0). apply Qplus_le_compat; [apply Hf | exact IH].
Qed.

Lemma Qsum_map_zero (f : Q -> Q) (xs : list Q) :
  (forall x, x == 0 -> f x == 0) ->
  Forall (fun e => e == 0) xs -> Qsum (map f xs) == 0.
Proof.
  intros Hf Hxs. induction Hxs as [|x xs Hx _ IH]; simpl; [reflexivity|].
  rewrite (Hf x Hx), IH. ring.
Qed.

Lemma weighted_penalty_nonneg (f : Q -> Q) (ws : list Q) (ts : list tensor) :
  (forall x, 0 <= f x) -> Forall (fun w => 0 <= w) ws ->
  0 <= weighted_penalty f ws ts.
Proof.
  intros Hf Hws. unfold weighted_penalty. revert ts.
  induction Hws as [|w ws Hw _ IH]; intros [|t ts]; simpl; try apply Qle_refl.
  rewrite <- (Qplus_0_l 0). apply Qplus_le_compat; [|apply IH].
  apply Qmult_le_0_compat; [exact Hw | apply Qsum_map_nonneg, Hf].
Qed.

Lemma weighted_penalty_negative (f : Q -> Q) (ws : list Q) (ts : list tensor) :
  (forall x, f (- x) == f x) ->
  weighted_penalty f ws (map tf_negative ts) == weighted_penalty f ws ts.
Proof.
  intros Hf. unfold weighted_penalty. revert ts.
  induction ws as [|w ws IH]; intros [|t ts]; simpl; try reflexivity.
  rewrite IH, map_map. rewrite (map_ext_Qsum (fun x => f (- x)) f _ Hf).
  reflexivity.
Qed.

Lemma weighted_penalty_scale (f : Q -> Q) (k : Q) (ws : list Q)
    (ts : list tensor) :
  weighted_penalty f (map (Qmult k) ws) ts == k * weighted_penalty f ws ts.
Proof.
  unfold weighted_penalty. revert ts.
  induction ws as [|w ws IH]; intros [|t ts]; simpl; try ring.
  rewrite IH. ring.
Qed.

Lemma weighted_penalty_app (f : Q -> Q) (ws1 ws2 : list Q)
    (ts1 ts2 : list tensor) :
  length ws1 = length ts1 ->
  weighted_penalty f (ws1 ++ ws2) (ts1 ++ ts2)
  == weighted_penalty f ws1 ts1 + weighted_penalty f ws2 ts2.
Proof.
  intros Hlen. unfold weighted_penalty.
  rewrite zip_with_app by exact Hlen. apply Qsum_app.
Qed.

Lemma weighted_penalty_replicate (f : Q -> Q) (x : Q) (ts : list tensor) :
  weighted_penalty f (replicate (length ts) x) ts == x * total_penalty f ts.
Proof.
  unfold weighted_penalty, total_penalty.
  induction ts as [|t ts IH]; simpl; [ring|]. rewrite IH. ring.
Qed.

Lemma weighted_penalty_zero (f : Q -> Q) (ws : list Q) (ts : list tensor) :
  (forall x, x == 0 -> f x == 0) ->
  Forall (fun t => Forall (fun e => e == 0) (entries t)) ts ->
  weighted_penalty f ws ts == 0.
Proof.
  intros Hf Hts. unfold weighted_penalty. revert ws.
  induction Hts as [|t ts Ht _ IH]; intros [|w ws]; simpl; try reflexivity.
  rewrite (Qsum_map_zero f _ Hf Ht), IH. ring.
Qed.

Lemma abs_facts : penalty_facts tf_abs abs_value.
Proof.
  split; [apply reduce_sum_abs|]. unfold abs_value.
  split; [apply Qabs_nonneg|]. split; [apply Qabs_opp|].
  intros x Hx. rewrite Hx. reflexivity.
Qed.

Lemma square_facts : penalty_facts tf_square squared.
Proof.
  split; [apply reduce_sum_square|]. unfold squared.
  split; [apply Qsqr_nonneg|].
  split; [intros x; simpl; ring|].
  intros x Hx. rewrite Hx. reflexivity.
Qed.

Lemma cube_facts : penalty_facts (fun t => tf_pow (tf_abs t) 3) cubed_abs.
Proof.
  split; [apply reduce_sum_cube|]. unfold cubed_abs.
  split; [intros x; apply Qpower_0_le, Qabs_nonneg|].
  split; [intros x; rewrite Qabs_opp; reflexivity|].
  intros x Hx. rewrite Hx. reflexivity.
Qed.

Lemma weighted_penalty_facts (c : regclass) :
  weighted c ->
  exists pen f, _apply c = Weighted._apply pen /\ penalty_facts pen f.
Proof.
  intros [-> | [-> | ->]].
  - exists tf_abs, abs_value. split; [reflexivity | apply abs_facts].
  - exists tf_square, squared. split; [reflexivity | apply square_facts].
  - exists (fun t => tf_pow (tf_abs t) 3), cubed_abs.
    split; [reflexivity | apply cube_facts].
Qed.

(** The loss of an accepted ['lambda'], in closed form. *)
Lemma regularization_loss_closed_form (c : regclass) (pen : tensor -> tensor)
    (f : Q -> Q) (lam : pyval) (ts : list tensor) :
  weighted c -> _apply c = Weighted._apply pen -> penalty_facts pen f ->
  accepts lam (length ts) = true ->
  exists loss,
    regularization_loss c lam ts = Ok loss /\
    loss == weighted_penalty f (weights_of lam (length ts)) ts.
Proof.
  intros Hc Ha [Hpen _] Hacc. eexists.
  split; [apply (regularization_loss_accepted c pen lam ts Hc Ha Hacc)|].
  rewrite (loop_result_closed_form pen f Hpen). ring.
Qed.
End PenaltyAlgebra.

(** X14. The penalty is never negative when the weights are not: for L1, L2 and
    L3, with a non-negative scalar ['lambda'], or with a list of non-negative
    weights of matching length, the loss is at least zero, whatever the
    tensors hold. *)
Theorem loss_nonnegative (c : regclass) (ts : list tensor) :
  weighted c ->
  (forall x, (0 <= x)%Q ->
     exists loss, regularization_loss c (PyNum x) ts = Ok loss /\ (0 <= loss)%Q) /\
  (forall ws, length ws = length ts -> Forall (fun w => (0 <= w)%Q) ws ->
     exists loss, regularization_loss c (PyList ws) ts = Ok loss /\ (0 <= loss)%Q).
Proof.
  intros Hc. destruct (weighted_penalty_facts c Hc) as (pen & f & Ha & Hf).
  split.
  - intros x Hx.
    destruct (regularization_loss_closed_form c pen f (PyNum x) ts Hc Ha Hf eq_refl)
      as (loss & Hloss & Heq).
    exists loss. split; [exact Hloss|]. rewrite Heq.
    apply weighted_penalty_nonneg; [apply Hf|]. cbn [weights_of].
    apply Forall_replicate. exact Hx.
  - intros ws Hlen Hws.
    destruct (regularization_loss_closed_form c pen f (PyList ws) ts Hc Ha Hf)
      as (loss & Hloss & Heq); [apply Nat.eqb_eq; exact Hlen|].
    exists loss. split; [exact Hloss|]. rewrite Heq.
    apply weighted_penalty_nonneg; [apply Hf | exact Hws].
Qed.

Lemma loss_nonnegative_witness :
  (exists loss, regularization_loss L3Regularizer (PyNum (1 # 2)) sample_tensors
                = Ok loss /\ (0 <= loss)%Q) /\
  (exists loss, regularization_loss L1Regularizer (PyList [0; 3]%Q) sample_tensors
                = Ok loss /\ (0 <= loss)%Q).
Proof.
  split.
  - refine (proj1 (loss_nonnegative L3Regularizer sample_tensors _) (1 # 2) _).
    + right; right; reflexivity.
    + discriminate.
  - refine (proj2 (loss_nonnegative L1Regularizer sample_tensors _) [0; 3]%Q _ _).
    + left; reflexivity.
    + reflexivity.
    + repeat constructor; discriminate.
Defined.

(** X15. The penalty does not see signs: for L1, L2 and L3 and any ['lambda'],
    negating every entry of every tensor gives the same outcome, the same
    exception or an equal loss. *)
Theorem loss_sign_symmetric (c : regclass) (lam : pyval) (ts : list tensor) :
  weighted c ->
  outcome_Qeq (regularization_loss c lam (map tf_negative ts))
              (regularization_loss c lam ts).
Proof.
  intros Hc. destruct (weighted_penalty_facts c Hc) as (pen & f & Ha & Hf).
  destruct (accepts lam (length ts)) eqn:Hacc.
  - destruct (regularization_loss_closed_form c pen f lam ts Hc Ha Hf Hacc)
      as (l2 & H2 & E2).
    destruct (regularization_loss_closed_form c pen f lam (map tf_negative ts)
                Hc Ha Hf) as (l1 & H1 & E1);
      [rewrite length_map; exact Hacc|].
    rewrite H1, H2. cbn [outcome_Qeq].
    rewrite E1, E2, length_map.
    apply weighted_penalty_negative. apply Hf.
  - rewrite (regularization_loss_rejected c lam ts Hc Hacc).
    rewrite (regularization_loss_rejected c lam (map tf_negative ts) Hc)
      by (rewrite length_map; exact Hacc).
    reflexivity.
Qed.

Lemma loss_sign_symmetric_witness :
  outcome_Qeq
    (regularization_loss L1Regularizer (PyNum (1 # 2)) (map tf_negative sample_tensors))
    (regularization_loss L1Regularizer (PyNum (1 # 2)) sample_tensors).
Proof.
  apply (loss_sign_symmetric L1Regularizer (PyNum (1 # 2)) sample_tensors).
  left; reflexivity.
Defined.

(** X16. The loss is linear in the weights: multiplying every weight of a list of
    matching length by [k], or a scalar ['lambda'] by [k], multiplies the
    loss by [k]; in particular zero weights give a zero loss. *)
Theorem loss_linear_in_weights (c : regclass) (k : Q) (ts : list tensor) :
  weighted c ->
  (forall ws, length ws = length ts ->
     exists l1 l2,
       regularization_loss c (PyList (map (Qmult k) ws)) ts = Ok l1 /\
       regularization_loss c (PyList ws) ts = Ok l2 /\
       (l1 == k * l2)%Q) /\
  (forall x,
     exists l1 l2,
       regularization_loss c (PyNum (k * x)) ts = Ok l1 /\
       regularization_loss c (PyNum x) ts = Ok l2 /\
       (l1 == k * l2)%Q).
Proof.
  intros Hc. destruct (weighted_penalty_facts c Hc) as (pen & f & Ha & Hf).
  split.
  - intros ws Hlen.
    destruct (regularization_loss_closed_form c pen f (PyList ws) ts Hc Ha Hf)
      as (l2 & H2 & E2); [apply Nat.eqb_eq; exact Hlen|].
    destruct (regularization_loss_closed_form c pen f (PyList (map (Qmult k) ws))
                ts Hc Ha Hf) as (l1 & H1 & E1);
      [apply Nat.eqb_eq; rewrite length_map; exact Hlen|].
    exists l1, l2. split; [exact H1|]. split; [exact H2|].
    rewrite E1, E2. cbn [weights_of]. apply weighted_penalty_scale.
  - intros x.
    destruct (regularization_loss_closed_form c pen f (PyNum x) ts Hc Ha Hf eq_refl)
      as (l2 & H2 & E2).
    destruct (regularization_loss_closed_form c pen f (PyNum (k * x)) ts Hc Ha Hf
                eq_refl) as (l1 & H1 & E1).
    exists l1, l2. split; [exact H1|]. split; [exact H2|].
    rewrite E1, E2. cbn [weights_of].
    rewrite !weighted_penalty_replicate. ring.
Qed.

Lemma loss_linear_in_weights_witness :
  exists l1 l2,
    regularization_loss L2Regularizer (PyList (map (Qmult 3) [1 # 2; 5]%Q))
      sample_tensors = Ok l1 /\
    regularization_loss L2Regularizer (PyList [1 # 2; 5]%Q) sample_tensors = Ok l2 /\
    (l1 == 3 * l2)%Q.
Proof.
  refine (proj1 (loss_linear_in_weights L2Regularizer 3 sample_tensors _)
            [1 # 2; 5]%Q _).
  - right; left; reflexivity.
  - reflexivity.
Defined.

(** X17. The loss adds up over groups of parameters: regularizing two groups of
    tensors together, with their weight lists put end to end, gives the sum
    of the losses of the two groups regularized apart. *)
Theorem loss_additive_over_groups (c : regclass) (ws1 ws2 : list Q)
    (ts1 ts2 : list tensor) :
  weighted c ->
  length ws1 = length ts1 -> length ws2 = length ts2 ->
  exists l l1 l2,
    regularization_loss c (PyList (ws1 ++ ws2)) (ts1 ++ ts2) = Ok l /\
    regularization_loss c (PyList ws1) ts1 = Ok l1 /\
    regularization_loss c (PyList ws2) ts2 = Ok l2 /\
    (l == l1 + l2)%Q.
Proof.
  intros Hc Hlen1 Hlen2.
  destruct (weighted_penalty_facts c Hc) as (pen & f & Ha & Hf).
  destruct (regularization_loss_closed_form c pen f (PyList ws1) ts1 Hc Ha Hf)
    as (l1 & H1 & E1); [apply Nat.eqb_eq; exact Hlen1|].
  destruct (regularization_loss_closed_form c pen f (PyList ws2) ts2 Hc Ha Hf)
    as (l2 & H2 & E2); [apply Nat.eqb_eq; exact Hlen2|].
  destruct (regularization_loss_closed_form c pen f (PyList (ws1 ++ ws2))
              (ts1 ++ ts2) Hc Ha Hf) as (l & H & E);
    [apply Nat.eqb_eq; rewrite !length_app; congruence|].
  exists l, l1, l2. repeat (split; [assumption|]).
  rewrite E, E1, E2. cbn [weights_of].
  apply weighted_penalty_app. exact Hlen1.
Qed.

Lemma loss_additive_over_groups_witness :
  exists l l1 l2,
    regularization_loss L1Regularizer (PyList ([1; 2]%Q ++ [3%Q]))
      (sample_tensors ++ [vector [-4%Q]]) = Ok l /\
    regularization_loss L1Regularizer (PyList [1; 2]%Q) sample_tensors = Ok l1 /\
    regularization_loss L1Regularizer (PyList [3%Q]) [vector [-4%Q]] = Ok l2 /\
    (l == l1 + l2)%Q.
Proof.
  apply (loss_additive_over_groups L1Regularizer [1; 2]%Q [3%Q] sample_tensors
           [vector [-4%Q]]).
  - left; reflexivity.
  - reflexivity.
  - reflexivity.
Defined.

(** X18. With a scalar ['lambda'] the weight is a global factor: the L1, L2 and L3
    losses are ['lambda'] times the sum, over every entry of every tensor, of
    the absolute value, the square and the cubed absolute value. *)
Theorem scalar_lambda_is_global_factor (x : Q) (ts : list tensor) :
  (exists loss, regularization_loss L1Regularizer (PyNum x) ts = Ok loss /\
                (loss == x * total_penalty abs_value ts)%Q) /\
  (exists loss, regularization_loss L2Regularizer (PyNum x) ts = Ok loss /\
                (loss == x * total_penalty squared ts)%Q) /\
  (exists loss, regularization_loss L3Regularizer (PyNum x) ts = Ok loss /\
                (loss == x * total_penalty cubed_abs ts)%Q).
Proof.
  split; [|split].
  - destruct (regularization_loss_closed_form L1Regularizer tf_abs abs_value
                (PyNum x) ts (or_introl eq_refl) eq_refl abs_facts eq_refl)
      as (loss & H & E).
    exists loss. split; [exact H|]. rewrite E. apply weighted_penalty_replicate.
  - destruct (regularization_loss_closed_form L2Regularizer tf_square squared
                (PyNum x) ts (or_intror (or_introl eq_refl)) eq_refl square_facts
                eq_refl) as (loss & H & E).
    exists loss. split; [exact H|]. rewrite E. apply weighted_penalty_replicate.
  - destruct (regularization_loss_closed_form L3Regularizer
                (fun t => tf_pow (tf_abs t) 3) cubed_abs
                (PyNum x) ts (or_intror (or_intror eq_refl)) eq_refl cube_facts
                eq_refl) as (loss & H & E).
    exists loss. split; [exact H|]. rewrite E. apply weighted_penalty_replicate.
Qed.

(** X19. The penalty vanishes at the origin: for L1, L2 and L3 and any accepted
    ['lambda'], when every entry of every tensor is zero the loss is zero. *)
Theorem loss_zero_at_origin (c : regclass) (lam : pyval) (ts : list tensor) :
  weighted c ->
  accepts lam (length ts) = true ->
  Forall (fun t => Forall (fun e => (e == 0)%Q) (entries t)) ts ->
  exists loss, regularization_loss c lam ts = Ok loss /\ (loss == 0)%Q.
Proof.
  intros Hc Hacc Hts.
  destruct (weighted_penalty_facts c Hc) as (pen & f & Ha & Hf).
  destruct (regularization_loss_closed_form c pen f lam ts Hc Ha Hf Hacc)
    as (loss & H & E).
  exists loss. split; [exact H|]. rewrite E.
  apply weighted_penalty_zero; [apply Hf | exact Hts].
Qed.

Lemma loss_zero_at_origin_witness :
  exists loss,
    regularization_loss L2Regularizer (PyList [7; 9]%Q) [vector [0; 0]%Q; vector [0%Q]]
    = Ok loss /\ (loss == 0)%Q.
Proof.
  apply (loss_zero_at_origin L2Regularizer (PyList [7; 9]%Q)
           [vector [0; 0]%Q; vector [0%Q]]).
  - right; left; reflexivity.
  - reflexivity.
  - repeat constructor.
Defined.
